(** * Tile-URL scripts for Google Earth Engine: a shallow embedding

    The repository holds two Python scripts,
    [scripts/generate_gee_tiles.py] (one layer: census tracts) and
    [scripts/generate_gee_tiles_full.py] (two layers: census tracts and
    block groups).  Each authenticates against Earth Engine, asks for a
    styled feature collection, asks for its map id and prints a JSON
    object on standard output.

    The scripts are effectful: they call the [ee] client library, print
    on two streams, catch exceptions and leave through [sys.exit].  They
    are embedded in a state-and-exception monad [M] over a [World] that
    records both streams and the calls made to the [ee] library together
    with what each call answered.  The [ee] library itself is a parameter
    (an [Env]): the theorems quantify over every behaviour it may have.

    Two things are taken from the library as it is typed.  What a call
    raises is an instance of [Exception], as [ee.EEException] and the
    errors of the standard library are; an interrupt from outside is no
    behaviour of the library.  The tile descriptor answered by
    [getMapId] holds strings, and a tile fetcher whose [url_format] is
    a string; either entry may be missing. *)

From Stdlib Require Import ZArith NArith Ascii.
From stdpp Require Import base strings gmap list.

Local Open Scope Z_scope.

(** ** Python values

    A Python [str] is represented by its UTF-8 encoding, so that the
    literals below read as they do in the scripts and a printed string
    is the sequence of bytes a UTF-8 stream receives. *)

#[warnings="-register-all"]
Inductive Value : Type :=
| VBool (b : bool)
| VStr (s : string)
| VDict (items : list (string * Value)).

(** A [dict] built by the scripts keeps its insertion order, which
    [json.dumps] follows: it is an association list without duplicate
    keys. *)
Abbreviation Dict := (list (string * Value)).

(** The objects of the [ee] library that the scripts read.  A
    [TileFetcher] has the attribute [url_format], a string.  The dict
    answered by [getMapId] holds a tile fetcher under ['tile_fetcher']
    and strings under its other keys (['mapid'], ['token'], ...); any
    key may be missing. *)
Record TileFetcher : Type := mkTileFetcher { url_format : string }.

Record MapIdDict : Type := mkMapIdDict {
  tile_fetcher : option TileFetcher;
  entries : gmap string string
}.

(** An exception object: its class and what [str(e)] gives. *)
Record Exception : Type := mkException { exc_class : string; exc_str : string }.

Definition squoted (s : string) : string := "'" +:+ s +:+ "'".

(** [KeyError(key)]: [str] of a [KeyError] is the [repr] of the key. *)
Definition KeyError (key : string) : Exception :=
  mkException "KeyError" (squoted key).

Definition type_name (v : Value) : string :=
  match v with
  | VBool _ => "bool"
  | VStr _ => "str"
  | VDict _ => "dict"
  end.

Definition TypeError (msg : string) : Exception := mkException "TypeError" msg.

(** [d[key]] on an insertion-ordered dict. *)
Fixpoint dict_get (d : Dict) (key : string) : option Value :=
  match d with
  | [] => None
  | (k, v) :: d' => if String.eqb k key then Some v else dict_get d' key
  end.

(** [d[key] = v]: an existing key keeps its place, a new key goes last. *)
Fixpoint dict_set (d : Dict) (key : string) (v : Value) : Dict :=
  match d with
  | [] => [(key, v)]
  | (k, v0) :: d' =>
      if String.eqb k key then (k, v) :: d' else (k, v0) :: dict_set d' key v
  end.

Definition dict_getitem (d : Dict) (key : string) : Exception + Value :=
  match dict_get d key with
  | Some v => inr v
  | None => inl (KeyError key)
  end.

(** [v[key]] on an arbitrary value. *)
Definition subscript (v : Value) (key : string) : Exception + Value :=
  match v with
  | VDict d => dict_getitem d key
  | VStr _ =>
      inl (TypeError "string indices must be integers, not 'str'")
  | VBool _ =>
      inl (TypeError (squoted (type_name v) +:+ " object is not subscriptable"))
  end.

(** [m['tile_fetcher']] and [m.get(key, default)] on the dict answered
    by [getMapId]. *)
Definition getitem_tile_fetcher (m : MapIdDict) : Exception + TileFetcher :=
  match tile_fetcher m with
  | Some f => inr f
  | None => inl (KeyError "tile_fetcher")
  end.

Definition map_get (m : MapIdDict) (key : string) (dflt : string) : string :=
  default dflt (entries m !! key).

(** Truth value of an object, as [if v:] takes it. *)
Definition truthy (v : Value) : bool :=
  match v with
  | VBool b => b
  | VStr s => negb (bool_decide (s = ""))
  | VDict d => match d with [] => false | _ :: _ => true end
  end.

(** ** [json.dumps]

    [json.dumps(obj, indent=2)] with the default [ensure_ascii=True]:
    every character outside the printable ASCII range leaves as a
    [\uXXXX] escape, characters beyond the basic plane as a surrogate
    pair. *)

Definition dquote : string := String "034"%char "".
Definition backslash : string := String "092"%char "".
Definition newline : string := String "010"%char "".

Definition hex_digit (n : N) : ascii :=
  (if n <? 10 then ascii_of_N (48 + n) else ascii_of_N (87 + n))%N.

(** ['{0:04x}'.format(n)] for [n < 0x10000]. *)
Definition hex4 (n : N) : string :=
  String (hex_digit (N.land (N.shiftr n 12) 15))
   (String (hex_digit (N.land (N.shiftr n 8) 15))
     (String (hex_digit (N.land (N.shiftr n 4) 15))
       (String (hex_digit (N.land n 15)) ""))).

Definition is_cont (b : N) : bool := (N.land b 0xC0 =? 0x80)%N.

(** The code points of a string given by its UTF-8 bytes.  A byte that
    opens no well-formed sequence stands for no Python string; it is read
    as the code point of the same number. *)
Fixpoint utf8_decode (bs : list N) : list N :=
  match bs with
  | [] => []
  | b0 :: r0 =>
      let single := b0 :: utf8_decode r0 in
      match r0 with
      | [] => single
      | b1 :: r1 =>
          if ((N.land b0 0xE0 =? 0xC0) && is_cont b1)%N then
            N.lor (N.shiftl (N.land b0 0x1F) 6) (N.land b1 0x3F) :: utf8_decode r1
          else
            match r1 with
            | [] => single
            | b2 :: r2 =>
                if ((N.land b0 0xF0 =? 0xE0) && is_cont b1 && is_cont b2)%N then
                  N.lor (N.shiftl (N.land b0 0x0F) 12)
                    (N.lor (N.shiftl (N.land b1 0x3F) 6) (N.land b2 0x3F))
                  :: utf8_decode r2
                else
                  match r2 with
                  | [] => single
                  | b3 :: r3 =>
                      if ((N.land b0 0xF8 =? 0xF0) && is_cont b1 && is_cont b2
                          && is_cont b3)%N then
                        N.lor (N.shiftl (N.land b0 0x07) 18)
                          (N.lor (N.shiftl (N.land b1 0x3F) 12)
                            (N.lor (N.shiftl (N.land b2 0x3F) 6) (N.land b3 0x3F)))
                        :: utf8_decode r3
                      else single
                  end
            end
      end
  end.

Fixpoint string_bytes (s : string) : list N :=
  match s with
  | EmptyString => []
  | String c s' => N_of_ascii c :: string_bytes s'
  end.

(** The replacement [json.encoder.py_encode_basestring_ascii] makes for
    one character. *)
Definition escape_char (n : N) : string :=
  (if n =? 0x5C then backslash +:+ backslash
   else if n =? 0x22 then backslash +:+ dquote
   else if n =? 0x08 then backslash +:+ "b"
   else if n =? 0x0C then backslash +:+ "f"
   else if n =? 0x0A then backslash +:+ "n"
   else if n =? 0x0D then backslash +:+ "r"
   else if n =? 0x09 then backslash +:+ "t"
   else if (0x20 <=? n) && (n <=? 0x7E) then String (ascii_of_N n) ""
   else if n <? 0x10000 then backslash +:+ "u" +:+ hex4 n
   else
     let m := n - 0x10000 in
     let s1 := N.lor 0xD800 (N.land (N.shiftr m 10) 0x3FF) in
     let s2 := N.lor 0xDC00 (N.land m 0x3FF) in
     backslash +:+ "u" +:+ hex4 s1 +:+ backslash +:+ "u" +:+ hex4 s2)%N.

Definition encode_basestring_ascii (s : string) : string :=
  dquote
  +:+ foldr (fun n acc => escape_char n +:+ acc) "" (utf8_decode (string_bytes s))
  +:+ dquote.

Fixpoint spaces (n : nat) : string :=
  match n with
  | O => ""
  | S n' => " " +:+ spaces n'
  end.

Definition newline_indent (indent level : nat) : string :=
  newline +:+ spaces (indent * level).

(** The encoder of [json.dumps(_, indent=indent)], [level] deep: each
    item of a dict on a line of its own, items separated by a comma, key
    and value by a colon and a space. *)
Fixpoint json_encode (indent level : nat) (v : Value) : string :=
  match v with
  | VBool true => "true"
  | VBool false => "false"
  | VStr s => encode_basestring_ascii s
  | VDict [] => "{}"
  | VDict items =>
      let fix encode_items (first : bool) (l : list (string * Value)) : string :=
        match l with
        | [] => ""
        | (k, x) :: l' =>
            (if first then "" else ",")
            +:+ newline_indent indent (S level)
            +:+ encode_basestring_ascii k +:+ ": "
            +:+ json_encode indent (S level) x
            +:+ encode_items false l'
        end in
      "{" +:+ encode_items true items +:+ newline_indent indent level +:+ "}"
  end.

Definition json_dumps (d : Dict) (indent : nat) : string :=
  json_encode indent 0 (VDict d).

(** [str(v)] as an f-string inserts it.  The scripts only ever format a
    string; the [repr] of a container is not spelled out. *)
Definition py_str (v : Value) : string :=
  match v with
  | VStr s => s
  | VBool true => "True"
  | VBool false => "False"
  | VDict _ => "{...}"
  end.

(** ** The world outside the script *)

(** Keyword arguments of [FeatureCollection.style]. *)
Record Style : Type := mkStyle { color : string; width : Z; fillColor : string }.

(** The [ee] client library and the place of the script.  The handles it
    gives out (credentials, feature collections, styled images) are its
    own; every call either answers or raises an [Exception]. *)
Record Env : Type := mkEnv {
  Credentials : Type;
  FeatureCollection : Type;
  Image : Type;
  (** [os.path.dirname(__file__)] *)
  dirname_file : string;
  (** [ee.ServiceAccountCredentials(email, key_file)] *)
  ServiceAccountCredentials : string -> string -> Exception + Credentials;
  (** [ee.Initialize(credentials, project=project)] *)
  Initialize : Credentials -> string -> Exception + unit;
  (** [ee.FeatureCollection(dataset_id)] *)
  new_FeatureCollection : string -> Exception + FeatureCollection;
  (** [collection.style] with its keyword arguments *)
  style : FeatureCollection -> Style -> Exception + Image;
  (** [image.getMapId()] *)
  getMapId : Image -> Exception + MapIdDict
}.

(** What a call to the library was and what came back, as far as an
    observer sees it: a handle shows only that it was given. *)
Inductive Event : Type :=
| EvServiceAccountCredentials (email key_file : string) (r : Exception + unit)
| EvInitialize (project : string) (r : Exception + unit)
| EvFeatureCollection (dataset_id : string) (r : Exception + unit)
| EvStyle (kwargs : Style) (r : Exception + unit)
| EvGetMapId (r : Exception + MapIdDict).

Definition observe {A} (r : Exception + A) : Exception + unit :=
  match r with
  | inl e => inl e
  | inr _ => inr tt
  end.

(** Both streams hold the argument of each [print], oldest first;
    [print] ends each of them with a newline. *)
Record World : Type := mkWorld {
  stdout : list string;
  stderr : list string;
  events : list Event
}.

Definition initial_world : World := mkWorld [] [] [].

Definition stream_text (prints : list string) : string :=
  foldr (fun s acc => s +:+ newline +:+ acc) "" prints.

(** ** The monad of script code

    A computation ends with a value or with something raised; what it
    printed and called before stays done. [SystemExit] is no
    [Exception]: [except Exception] lets it through, a bare [except:]
    does not. *)

Inductive Raised : Type :=
| Exc (e : Exception)
| SystemExit (code : Z).

Definition M (A : Type) : Type := World -> (Raised + A) * World.

Definition ret {A} (a : A) : M A := fun w => (inr a, w).

Definition bind {A B} (m : M A) (k : A -> M B) : M B :=
  fun w =>
    match m w with
    | (inl r, w') => (inl r, w')
    | (inr a, w') => k a w'
    end.

#[global] Instance M_ret : MRet M := @ret.
#[global] Instance M_bind : MBind M := fun A B k m => bind m k.

Definition raise {A} (e : Exception) : M A := fun w => (inl (Exc e), w).

(** A pure operation that may raise. *)
Definition lift {A} (r : Exception + A) : M A :=
  match r with
  | inl e => raise e
  | inr a => ret a
  end.

(** [sys.exit(code)] *)
Definition sys_exit {A} (code : Z) : M A := fun w => (inl (SystemExit code), w).

(** [try: body / except Exception as e: handler e] *)
Definition try_except_Exception {A} (body : M A) (handler : Exception -> M A)
  : M A :=
  fun w =>
    match body w with
    | (inl (Exc e), w') => handler e w'
    | r => r
    end.

(** [try: body / except: handler] *)
Definition try_except {A} (body : M A) (handler : M A) : M A :=
  fun w =>
    match body w with
    | (inl _, w') => handler w'
    | r => r
    end.

(** What a step adds to the world: lines on either stream, calls made. *)
Definition emit (w : World) (out err : list string) (evs : list Event) : World :=
  mkWorld (stdout w ++ out) (stderr w ++ err) (events w ++ evs).

(** [print(s)] and [print(s, file=sys.stderr)] *)
Definition print (s : string) : M unit :=
  fun w => (inr tt, emit w [s] [] []).

Definition print_stderr (s : string) : M unit :=
  fun w => (inr tt, emit w [] [s] []).

(** A call to the library: the event is recorded, the answer returned or
    its exception raised. *)
Definition log {A} (ev : Event) (r : Exception + A) : M A :=
  fun w =>
    (match r with inl e => inl (Exc e) | inr a => inr a end,
     emit w [] [] [ev]).

Section Calls.
Variable env : Env.

Definition ee_ServiceAccountCredentials (email key_file : string)
  : M (Credentials env) :=
  let r := ServiceAccountCredentials env email key_file in
  log (EvServiceAccountCredentials email key_file (observe r)) r.

Definition ee_Initialize (credentials : Credentials env) (project : string)
  : M unit :=
  let r := Initialize env credentials project in
  log (EvInitialize project (observe r)) r.

Definition ee_FeatureCollection (dataset_id : string)
  : M (FeatureCollection env) :=
  let r := new_FeatureCollection env dataset_id in
  log (EvFeatureCollection dataset_id (observe r)) r.

Definition call_style (fc : FeatureCollection env) (kwargs : Style)
  : M (Image env) :=
  let r := style env fc kwargs in
  log (EvStyle kwargs (observe r)) r.

Definition call_getMapId (img : Image env) : M MapIdDict :=
  let r := getMapId env img in
  log (EvGetMapId r) r.
End Calls.

(** [os.path.join] on a POSIX system. *)
Definition ends_with_slash (s : string) : bool :=
  match last (string_bytes s) with
  | Some b => (b =? 47)%N
  | None => false
  end.

Definition starts_with_slash (s : string) : bool :=
  match s with
  | String c _ => (N_of_ascii c =? 47)%N
  | EmptyString => false
  end.

Definition os_path_join (a : string) (ps : list string) : string :=
  foldl (fun path b =>
           if starts_with_slash b then b
           else if bool_decide (path = "") || ends_with_slash path then path +:+ b
           else path +:+ "/" +:+ b) a ps.

(** What the interpreter hands to the operating system when the script
    ends: 0 after a normal end, the code of [sys.exit], 1 after an
    exception nobody caught. *)
Definition exit_code (r : Raised + unit) : Z :=
  match r with
  | inr _ => 0
  | inl (SystemExit code) => code
  | inl (Exc _) => 1
  end.

(** [v[k1][k2]...]: subscripts applied from left to right. *)
Definition getitem_path (v : Value) (keys : list string) : Exception + Value :=
  foldl (fun r k => match r with inl e => inl e | inr x => subscript x k end)
        (inr v) keys.

(** ** [scripts/generate_gee_tiles.py] *)

Module generate_gee_tiles.
Section Script.
Variable env : Env.

Definition SERVICE_ACCOUNT : string :=
  "882446104421-compute@developer.gserviceaccount.com".
Definition CREDENTIALS_PATH : string :=
  os_path_join (dirname_file env) [".."; "gee_creds.json"].
Definition PROJECT_ID : string := "msads-mba-autumn-2025-team-1".

Definition authenticate_gee : M bool :=
  try_except_Exception
    (credentials ← ee_ServiceAccountCredentials env SERVICE_ACCOUNT CREDENTIALS_PATH;
     ee_Initialize env credentials PROJECT_ID;;
     print_stderr "✓ Successfully authenticated with Google Earth Engine";;
     mret true)
    (fun e =>
       print_stderr ("✗ Failed to authenticate with GEE: " +:+ exc_str e);;
       mret false).

Definition get_census_tracts_layer : M (Image env) :=
  tracts ← ee_FeatureCollection env "TIGER/2010/Tracts_DP1";
  styled ← call_style env tracts
             {| color := "1f77b4"; width := 1; fillColor := "00000000" |};
  mret styled.

Definition generate_tile_url : M Dict :=
  try_except_Exception
    (layer ← get_census_tracts_layer;
     map_id_dict ← call_getMapId env layer;
     tile_fetcher ← lift (getitem_tile_fetcher map_id_dict);
     let tile_url := url_format tile_fetcher in
     mret [("success", VBool true);
           ("tile_url", VStr tile_url);
           ("map_id", VStr (map_get map_id_dict "mapid" "unknown"))])
    (fun e =>
       mret [("success", VBool false);
             ("error", VStr (exc_str e))]).

Definition main : M unit :=
  authenticated ← authenticate_gee;
  (if negb authenticated then sys_exit 1 else mret tt);;
  print_stderr "Generating GEE tile URL for census tract boundaries...";;
  result ← generate_tile_url;
  success ← lift (dict_getitem result "success");
  if truthy success then
    print_stderr "✓ Tile URL generated successfully";;
    print (json_dumps result 2)
  else
    error ← lift (dict_getitem result "error");
    print_stderr ("✗ Failed to generate tile URL: " +:+ py_str error);;
    sys_exit 1.
End Script.
End generate_gee_tiles.

(** ** [scripts/generate_gee_tiles_full.py] *)

Module generate_gee_tiles_full.
Section Script.
Variable env : Env.

Definition SERVICE_ACCOUNT : string :=
  "882446104421-compute@developer.gserviceaccount.com".
Definition CREDENTIALS_PATH : string :=
  os_path_join (dirname_file env) [".."; "gee_creds.json"].
Definition PROJECT_ID : string := "msads-mba-autumn-2025-team-1".

Definition authenticate_gee : M bool :=
  try_except_Exception
    (credentials ← ee_ServiceAccountCredentials env SERVICE_ACCOUNT CREDENTIALS_PATH;
     ee_Initialize env credentials PROJECT_ID;;
     print_stderr "✓ Successfully authenticated with Google Earth Engine";;
     mret true)
    (fun e =>
       print_stderr ("✗ Failed to authenticate with GEE: " +:+ exc_str e);;
       mret false).

Definition get_census_tracts_layer : M (Image env) :=
  tracts ← ee_FeatureCollection env "TIGER/2010/Tracts_DP1";
  styled ← call_style env tracts
             {| color := "1f77b4"; width := 1; fillColor := "00000000" |};
  mret styled.

Definition get_block_groups_layer : M (Image env) :=
  block_groups ←
    try_except
      (block_groups ← ee_FeatureCollection env "TIGER/2010/BG";
       print_stderr "✓ Using TIGER/2010/BG dataset";;
       mret block_groups)
      (try_except
         (block_groups ← ee_FeatureCollection env "TIGER/2010/BlockGroups";
          print_stderr "✓ Using TIGER/2010/BlockGroups dataset";;
          mret block_groups)
         (print_stderr "⚠ Block groups dataset not found, using blocks";;
          block_groups ← ee_FeatureCollection env "TIGER/2010/Blocks_DP1";
          mret block_groups));
  styled ← call_style env block_groups
             {| color := "9333ea"; width := 1; fillColor := "00000000" |};
  mret styled.

Definition generate_tile_urls : M Dict :=
  try_except_Exception
    (let results : Dict := [] in
     print_stderr "Generating tile URL for census tracts...";;
     tracts_layer ← get_census_tracts_layer;
     tracts_map ← call_getMapId env tracts_layer;
     tile_fetcher ← lift (getitem_tile_fetcher tracts_map);
     let results :=
       dict_set results "tracts"
         (VDict [("tile_url", VStr (url_format tile_fetcher));
                 ("map_id", VStr (map_get tracts_map "mapid" "unknown"))]) in
     print_stderr "✓ Census tracts tile URL generated";;
     print_stderr "Generating tile URL for block groups...";;
     bg_layer ← get_block_groups_layer;
     bg_map ← call_getMapId env bg_layer;
     tile_fetcher ← lift (getitem_tile_fetcher bg_map);
     let results :=
       dict_set results "block_groups"
         (VDict [("tile_url", VStr (url_format tile_fetcher));
                 ("map_id", VStr (map_get bg_map "mapid" "unknown"))]) in
     print_stderr "✓ Block groups tile URL generated";;
     mret [("success", VBool true);
           ("data", VDict results)])
    (fun e =>
       mret [("success", VBool false);
             ("error", VStr (exc_str e))]).

Definition main : M unit :=
  authenticated ← authenticate_gee;
  (if negb authenticated then sys_exit 1 else mret tt);;
  print_stderr (newline +:+ "🌍 Generating GEE tile URLs for TIGER/2010 boundaries..."
                +:+ newline);;
  result ← generate_tile_urls;
  success ← lift (dict_getitem result "success");
  if truthy success then
    print_stderr (newline +:+ "✅ All tile URLs generated successfully" +:+ newline);;
    tracts_tile_url ← lift (getitem_path (VDict result) ["data"; "tracts"; "tile_url"]);
    tracts_map_id ← lift (getitem_path (VDict result) ["data"; "tracts"; "map_id"]);
    block_groups_tile_url ←
      lift (getitem_path (VDict result) ["data"; "block_groups"; "tile_url"]);
    block_groups_map_id ←
      lift (getitem_path (VDict result) ["data"; "block_groups"; "map_id"]);
    let output : Dict :=
      [("success", VBool true);
       ("tracts_tile_url", tracts_tile_url);
       ("tracts_map_id", tracts_map_id);
       ("block_groups_tile_url", block_groups_tile_url);
       ("block_groups_map_id", block_groups_map_id)] in
    print (json_dumps output 2)
  else
    error ← lift (dict_getitem result "error");
    print_stderr (newline +:+ "✗ Failed to generate tile URLs: " +:+ py_str error
                  +:+ newline);;
    sys_exit 1.
End Script.
End generate_gee_tiles_full.

Definition is_ok {A} (r : Exception + A) : bool :=
  match r with inr _ => true | inl _ => false end.

(** What a computation ends with when a pure step answered [r]. *)
Definition outcome {A} (r : Exception + A) : Raised + A :=
  match r with inl e => inl (Exc e) | inr a => inr a end.

(** ** Running a script *)

(** The end of a run that starts with empty streams: the exit code of
    the process and the world it leaves. *)
Definition run (main : M unit) : Z * World :=
  let '(r, w) := main initial_world in (exit_code r, w).

(** ** The components of the specification, read off the environment

    The specification speaks of an Authenticator and of a Layer Resolver
    that works through a layer descriptor.  The definitions of this
    module say what those components answer for a given environment,
    without streams or control flow; the theorems compare the scripts
    with them. *)

Module Spec.

(** A Tile Result: the tile URL template and the map identifier. *)
Record TileResult : Type := mkTileResult { tile_url : string; map_id : string }.

(** A layer descriptor: the candidate dataset identifiers in order of
    preference (at least one) and the fixed style. *)
Record Layer : Type := mkLayer {
  first_candidate : string;
  more_candidates : list string;
  layer_style : Style
}.

Definition candidates (l : Layer) : list string :=
  first_candidate l :: more_candidates l.

Definition tracts : Layer :=
  mkLayer "TIGER/2010/Tracts_DP1" []
    {| color := "1f77b4"; width := 1; fillColor := "00000000" |}.

Definition block_groups : Layer :=
  mkLayer "TIGER/2010/BG" ["TIGER/2010/BlockGroups"; "TIGER/2010/Blocks_DP1"]
    {| color := "9333ea"; width := 1; fillColor := "00000000" |}.

Section WithEnv.
Variable env : Env.

(** Authenticator: one attempt with the fixed account, key file and
    project; the cause of a failure is the exception of the call that
    raised. *)
Definition authenticate : Exception + unit :=
  match ServiceAccountCredentials env generate_gee_tiles.SERVICE_ACCOUNT
          (generate_gee_tiles.CREDENTIALS_PATH env) with
  | inl e => inl e
  | inr credentials => Initialize env credentials generate_gee_tiles.PROJECT_ID
  end.

(** Steps 1 and 2 of the resolver: the first candidate that fetches
    without error, with its collection; when the last candidate raises
    too, its exception. *)
Fixpoint select_from (c : string) (rest : list string)
  : Exception + (string * FeatureCollection env) :=
  match new_FeatureCollection env c with
  | inr fc => inr (c, fc)
  | inl e =>
      match rest with
      | [] => inl e
      | c' :: rest' => select_from c' rest'
      end
  end.

Definition select (l : Layer) : Exception + (string * FeatureCollection env) :=
  select_from (first_candidate l) (more_candidates l).

(** The candidates a resolution tries: all up to and including the
    first that fetches without error. *)
Fixpoint attempted (cs : list string) : list string :=
  match cs with
  | [] => []
  | c :: cs' =>
      match new_FeatureCollection env c with
      | inr _ => [c]
      | inl _ => c :: attempted cs'
      end
  end.

Definition fetch_event (c : string) : Event :=
  EvFeatureCollection c (observe (new_FeatureCollection env c)).

(** Step 3: the selected collection with the fixed style applied. *)
Definition styled (l : Layer) : Exception + Image env :=
  match select l with
  | inl e => inl e
  | inr (_, fc) => style env fc (layer_style l)
  end.

(** Step 4: the tile descriptor of the styled layer. *)
Definition descriptor (l : Layer) : Exception + MapIdDict :=
  match styled l with
  | inl e => inl e
  | inr img => getMapId env img
  end.

(** Steps 4 and 5: the tile URL template and the map identifier found
    in a tile descriptor. *)
Definition tile_result (m : MapIdDict) : Exception + TileResult :=
  match tile_fetcher m with
  | None => inl (KeyError "tile_fetcher")
  | Some f =>
      inr {| tile_url := url_format f;
             map_id := default "unknown" (entries m !! "mapid") |}
  end.

(** Layer Resolver: a tile URL and a map identifier, or the exception
    of the step that raised. *)
Definition resolve (l : Layer) : Exception + TileResult :=
  match descriptor l with
  | inl e => inl e
  | inr m => tile_result m
  end.

(** The calls an observer sees the Authenticator make: the second only
    when the first answered. *)
Definition auth_trace : list Event :=
  let email := generate_gee_tiles.SERVICE_ACCOUNT in
  let key_file := generate_gee_tiles.CREDENTIALS_PATH env in
  let project := generate_gee_tiles.PROJECT_ID in
  match ServiceAccountCredentials env email key_file with
  | inl e => [EvServiceAccountCredentials email key_file (inl e)]
  | inr credentials =>
      [EvServiceAccountCredentials email key_file (inr tt);
       EvInitialize project (observe (Initialize env credentials project))]
  end.

(** The calls an observer sees the resolution of a layer make: the
    fetches tried, then the style call on the selected collection, then
    the request for the tile descriptor. *)
Definition layer_trace (l : Layer) : list Event :=
  map fetch_event (attempted (candidates l)) ++
  match select l with
  | inl _ => []
  | inr (_, fc) =>
      [EvStyle (layer_style l) (observe (style env fc (layer_style l)))]
  end.

Definition resolve_trace (l : Layer) : list Event :=
  layer_trace l ++
  match styled l with
  | inl _ => []
  | inr img => [EvGetMapId (getMapId env img)]
  end.

(** The diagnostic line of the Authenticator. *)
Definition auth_line : string :=
  match authenticate with
  | inr _ => "✓ Successfully authenticated with Google Earth Engine"
  | inl e => "✗ Failed to authenticate with GEE: " +:+ exc_str e
  end.

(** The notice the block-group resolution leaves on standard error
    about the candidate it settled on. *)
Definition fallback_notice : string :=
  match new_FeatureCollection env "TIGER/2010/BG" with
  | inr _ => "✓ Using TIGER/2010/BG dataset"
  | inl _ =>
      match new_FeatureCollection env "TIGER/2010/BlockGroups" with
      | inr _ => "✓ Using TIGER/2010/BlockGroups dataset"
      | inl _ => "⚠ Block groups dataset not found, using blocks"
      end
  end.

(** The result handed to the Result Reporter: the failure object of an
    exception, the object of one resolved layer, the object of two. *)
Definition failure_result (e : Exception) : Dict :=
  [("success", VBool false); ("error", VStr (exc_str e))].

Definition tile_dict (t : TileResult) : Dict :=
  [("tile_url", VStr (tile_url t)); ("map_id", VStr (map_id t))].

Definition single_result (r : Exception + TileResult) : Dict :=
  match r with
  | inl e => failure_result e
  | inr t => ("success", VBool true) :: tile_dict t
  end.

Definition full_result (r1 r2 : Exception + TileResult) : Dict :=
  match r1, r2 with
  | inl e, _ => failure_result e
  | inr _, inl e => failure_result e
  | inr t1, inr t2 =>
      [("success", VBool true);
       ("data", VDict [("tracts", VDict (tile_dict t1));
                       ("block_groups", VDict (tile_dict t2))])]
  end.

(** The object the dual-layer script serialises. *)
Definition full_output (t1 t2 : TileResult) : Dict :=
  [("success", VBool true);
   ("tracts_tile_url", VStr (tile_url t1));
   ("tracts_map_id", VStr (map_id t1));
   ("block_groups_tile_url", VStr (tile_url t2));
   ("block_groups_map_id", VStr (map_id t2))].

(** Progress lines of the dual-layer resolution, and its calls: the
    block groups are reached only once the tracts resolved. *)
Definition full_progress : list string :=
  "Generating tile URL for census tracts..." ::
  match resolve tracts with
  | inl _ => []
  | inr _ =>
      "✓ Census tracts tile URL generated" ::
      "Generating tile URL for block groups..." ::
      fallback_notice ::
      match resolve block_groups with
      | inl _ => []
      | inr _ => ["✓ Block groups tile URL generated"]
      end
  end.

Definition full_trace : list Event :=
  resolve_trace tracts ++
  match resolve tracts with
  | inl _ => []
  | inr _ => resolve_trace block_groups
  end.

(** The whole run of the single-layer script: exit code and world. *)
Definition single_run : Z * World :=
  match authenticate with
  | inl _ => (1, mkWorld [] [auth_line] auth_trace)
  | inr _ =>
      let evs := auth_trace ++ resolve_trace tracts in
      let err :=
        [auth_line; "Generating GEE tile URL for census tract boundaries..."] in
      match resolve tracts with
      | inl e =>
          (1, mkWorld []
                (err ++ ["✗ Failed to generate tile URL: " +:+ exc_str e]) evs)
      | inr t =>
          (0, mkWorld [json_dumps (single_result (inr t)) 2]
                (err ++ ["✓ Tile URL generated successfully"]) evs)
      end
  end.

(** The whole run of the dual-layer script. *)
Definition full_run : Z * World :=
  match authenticate with
  | inl _ => (1, mkWorld [] [auth_line] auth_trace)
  | inr _ =>
      let evs := auth_trace ++ full_trace in
      let err :=
        auth_line ::
        (newline +:+ "🌍 Generating GEE tile URLs for TIGER/2010 boundaries..."
         +:+ newline) ::
        full_progress in
      let failed (e : Exception) :=
        (1, mkWorld []
              (err ++ [newline +:+ "✗ Failed to generate tile URLs: "
                       +:+ exc_str e +:+ newline]) evs) in
      match resolve tracts with
      | inl e => failed e
      | inr t1 =>
          match resolve block_groups with
          | inl e => failed e
          | inr t2 =>
              (0, mkWorld [json_dumps (full_output t1 t2) 2]
                    (err ++ [newline +:+ "✅ All tile URLs generated successfully"
                             +:+ newline]) evs)
          end
      end
  end.
End WithEnv.
End Spec.

(** ** Observations on a run *)

Definition is_credentials_event (ev : Event) : bool :=
  match ev with EvServiceAccountCredentials _ _ _ => true | _ => false end.

Definition is_initialize_event (ev : Event) : bool :=
  match ev with EvInitialize _ _ => true | _ => false end.

(** The calls of the Layer Resolver: fetch, style, tile descriptor. *)
Definition is_resolver_event (ev : Event) : bool :=
  match ev with
  | EvFeatureCollection _ _ | EvStyle _ _ | EvGetMapId _ => true
  | _ => false
  end.

Definition count_events (p : Event -> bool) (w : World) : nat :=
  length (List.filter p (events w)).

(** A result object as the Result Reporter expects it: a boolean under
    ['success'] and, when that is [False], a string under ['error']. *)
Definition well_formed_result (d : Dict) : bool :=
  match dict_get d "success" with
  | Some (VBool true) => true
  | Some (VBool false) =>
      match dict_get d "error" with
      | Some (VStr _) => true
      | _ => false
      end
  | _ => false
  end.









(** ** Libraries to run the scripts against *)

(** A library whose credentials are rejected. *)
Definition rejecting_env : Env :=
  {| Credentials := unit; FeatureCollection := unit; Image := unit;
     dirname_file := "/srv/scripts";
     ServiceAccountCredentials := fun _ _ =>
       inl (mkException "EEException" "invalid_grant");
     Initialize := fun _ _ => inr tt;
     new_FeatureCollection := fun _ => inr tt;
     style := fun _ _ => inr tt;
     getMapId := fun _ => inr (mkMapIdDict None ∅) |}.

(** A library that knows no ["TIGER/2010/BG"] but knows the other
    datasets; every dataset is its own handle. *)
Definition no_BG_env : Env :=
  {| Credentials := unit; FeatureCollection := string; Image := string;
     dirname_file := "/srv/scripts";
     ServiceAccountCredentials := fun _ _ => inr tt;
     Initialize := fun _ _ => inr tt;
     new_FeatureCollection := fun dataset_id =>
       if String.eqb dataset_id "TIGER/2010/BG"
       then inl (mkException "EEException" "Collection asset not found.")
       else inr dataset_id;
     style := fun fc _ => inr fc;
     getMapId := fun img =>
       inr (mkMapIdDict (Some (mkTileFetcher ("https://tiles.test/" +:+ img)))
              {["mapid" := "map-of-" +:+ img]}) |}.

(** A library on which everything works; the tile descriptor of the
    tracts is the one of the scenario. *)
Definition scenario_env : Env :=
  {| Credentials := unit; FeatureCollection := string; Image := string;
     dirname_file := "/srv/scripts";
     ServiceAccountCredentials := fun _ _ => inr tt;
     Initialize := fun _ _ => inr tt;
     new_FeatureCollection := fun dataset_id => inr dataset_id;
     style := fun fc _ => inr fc;
     getMapId := fun img =>
       if String.eqb img "TIGER/2010/Tracts_DP1"
       then inr (mkMapIdDict
                   (Some (mkTileFetcher "https://example.com/{z}/{x}/{y}.png"))
                   {["mapid" := "abc123"; "token" := ""]})
       else inr (mkMapIdDict
                   (Some (mkTileFetcher "https://example.com/bg/{z}/{x}/{y}.png"))
                   {["mapid" := "def456"]}) |}.

(** A library whose tile descriptors carry no ['mapid'] for the tracts
    and one for the block groups. *)
Definition no_mapid_env : Env :=
  {| Credentials := unit; FeatureCollection := string; Image := string;
     dirname_file := "/srv/scripts";
     ServiceAccountCredentials := fun _ _ => inr tt;
     Initialize := fun _ _ => inr tt;
     new_FeatureCollection := fun dataset_id => inr dataset_id;
     style := fun fc _ => inr fc;
     getMapId := fun img =>
       if String.eqb img "TIGER/2010/Tracts_DP1"
       then inr (mkMapIdDict (Some (mkTileFetcher "https://t.test/{z}/{x}/{y}"))
                   {["token" := "tk"]})
       else inr (mkMapIdDict (Some (mkTileFetcher "https://b.test/{z}/{x}/{y}"))
                   {["mapid" := "bg-1"]}) |}.



(** ** Further observations *)

(** The calls that belong to the block-group layer: a fetch of one of
    its candidates, a style call in its colour. *)
Definition is_block_group_event (ev : Event) : bool :=
  match ev with
  | EvFeatureCollection dataset_id _ =>
      existsb (String.eqb dataset_id) (Spec.candidates Spec.block_groups)
  | EvStyle kwargs _ => String.eqb (color kwargs) "9333ea"
  | _ => false
  end.

(** The notice that goes with a block-group candidate. *)
Definition notice_for (candidate : string) : string :=
  if String.eqb candidate "TIGER/2010/BG"
  then "✓ Using TIGER/2010/BG dataset"
  else if String.eqb candidate "TIGER/2010/BlockGroups"
  then "✓ Using TIGER/2010/BlockGroups dataset"
  else "⚠ Block groups dataset not found, using blocks".

(** A computation ended cleanly: it returned, or left by [sys.exit(1)]. *)
Definition ends_cleanly (r : Raised + unit) : Prop :=
  r = inr tt \/ r = inl (SystemExit 1).

(** A library whose tile descriptors have no tile fetcher. *)
Definition no_fetcher_env : Env :=
  {| Credentials := unit; FeatureCollection := string; Image := string;
     dirname_file := "/srv/scripts";
     ServiceAccountCredentials := fun _ _ => inr tt;
     Initialize := fun _ _ => inr tt;
     new_FeatureCollection := fun dataset_id => inr dataset_id;
     style := fun fc _ => inr fc;
     getMapId := fun _ => inr (mkMapIdDict None {["mapid" := "m-1"]}) |}.

(** A library that knows no dataset at all; each refusal names the
    dataset asked for. *)
Definition no_dataset_env : Env :=
  {| Credentials := unit; FeatureCollection := unit; Image := unit;
     dirname_file := "/srv/scripts";
     ServiceAccountCredentials := fun _ _ => inr tt;
     Initialize := fun _ _ => inr tt;
     new_FeatureCollection := fun dataset_id =>
       inl (mkException "EEException" ("not found: " +:+ dataset_id));
     style := fun _ _ => inr tt;
     getMapId := fun _ => inr (mkMapIdDict None ∅) |}.

(** Text that any ASCII-compatible stream takes as it is: printable
    ASCII characters and newlines only. *)
Definition printable_code (n : N) : bool := ((0x20 <=? n) && (n <=? 0x7E))%N.

Fixpoint ascii_text (s : string) : bool :=
  match s with
  | EmptyString => true
  | String c s' =>
      (printable_code (N_of_ascii c) || (N_of_ascii c =? 0x0A)%N)
      && ascii_text s'
  end.

(** A string [json.dumps] has nothing to escape in: printable ASCII
    characters other than the double quote and the backslash. *)
Definition plain_code (n : N) : bool :=
  (printable_code n && negb (n =? 0x22) && negb (n =? 0x5C))%N.

Fixpoint plain_string (s : string) : bool :=
  match s with
  | EmptyString => true
  | String c s' => plain_code (N_of_ascii c) && plain_string s'
  end.

(** A library that knows the tracts only: every other dataset is
    refused, and the tile descriptor of the tracts has no ['mapid']. *)
Definition tracts_only_env : Env :=
  {| Credentials := unit; FeatureCollection := unit; Image := unit;
     dirname_file := "/srv/scripts";
     ServiceAccountCredentials := fun _ _ => inr tt;
     Initialize := fun _ _ => inr tt;
     new_FeatureCollection := fun dataset_id =>
       if String.eqb dataset_id "TIGER/2010/Tracts_DP1"
       then inr tt
       else inl (mkException "EEException" "Collection asset not found.");
     style := fun _ _ => inr tt;
     getMapId := fun _ =>
       inr (mkMapIdDict (Some (mkTileFetcher "https://t.test/{z}/{x}/{y}"))
              {["token" := "tk"]}) |}.

(** * Theorems *)

(** ** Worlds *)

Lemma emit_emit w out err evs out' err' evs' :
  emit (emit w out err evs) out' err' evs'
  = emit w (out ++ out') (err ++ err') (evs ++ evs').
Proof. unfold emit; simpl. by rewrite !app_assoc. Qed.

Lemma emit_nil w : emit w [] [] [] = w.
Proof. destruct w; unfold emit; simpl. by rewrite !app_nil_r. Qed.

Lemma emit_initial out err evs : emit initial_world out err evs = mkWorld out err evs.
Proof. reflexivity. Qed.

#[local] Arguments os_path_join : simpl never.
#[local] Arguments generate_gee_tiles.CREDENTIALS_PATH : simpl never.
#[local] Arguments generate_gee_tiles_full.CREDENTIALS_PATH : simpl never.
#[local] Arguments encode_basestring_ascii : simpl never.

(** Unfolds the monad down to functions on worlds. *)
Ltac unfold_monad :=
  cbv beta delta
    [mbind mret M_bind M_ret bind ret raise lift sys_exit
     try_except_Exception try_except print print_stderr log
     ee_ServiceAccountCredentials ee_Initialize ee_FeatureCollection
     call_style call_getMapId] in *.

(** Brings the world of a goal into the form [emit w out err evs]. *)
Ltac norm_world := rewrite ?emit_emit, ?app_nil_r, <- ?app_assoc; cbn [app].

(** Case analysis on what a call to the library answered. *)
Ltac case_call t :=
  let E := fresh "E" in
  destruct t eqn:E; cbn; rewrite ?E; cbn; norm_world; try done.

Ltac next_call :=
  match goal with
  | |- context [ServiceAccountCredentials ?env ?a ?b] =>
      case_call (ServiceAccountCredentials env a b)
  | |- context [Initialize ?env ?c ?p] => case_call (Initialize env c p)
  | |- context [new_FeatureCollection ?env ?c] =>
      case_call (new_FeatureCollection env c)
  | |- context [style ?env ?fc ?st] => case_call (style env fc st)
  | |- context [getMapId ?env ?img] => case_call (getMapId env img)
  end.

(** ** The Authenticator *)

Lemma authenticate_gee_run env w :
  generate_gee_tiles.authenticate_gee env w
  = (inr (is_ok (Spec.authenticate env)),
     emit w [] [Spec.auth_line env] (Spec.auth_trace env)).
Proof.
  unfold generate_gee_tiles.authenticate_gee, Spec.auth_line, Spec.authenticate,
    Spec.auth_trace.
  unfold_monad.
  destruct (ServiceAccountCredentials env _ _) as [e|c]; cbn; norm_world; [done|].
  destruct (Initialize env c _) as [e|[]]; cbn; norm_world; done.
Qed.

Lemma authenticate_gee_full_run env w :
  generate_gee_tiles_full.authenticate_gee env w
  = (inr (is_ok (Spec.authenticate env)),
     emit w [] [Spec.auth_line env] (Spec.auth_trace env)).
Proof. apply authenticate_gee_run. Qed.

(** ** The Layer Resolver *)

Lemma get_census_tracts_layer_run env w :
  generate_gee_tiles.get_census_tracts_layer env w
  = (outcome (Spec.styled env Spec.tracts),
     emit w [] [] (Spec.layer_trace env Spec.tracts)).
Proof.
  unfold generate_gee_tiles.get_census_tracts_layer, Spec.styled, Spec.layer_trace,
    Spec.select, Spec.fetch_event.
  unfold_monad. cbn. repeat next_call.
Qed.

Lemma get_census_tracts_layer_full_run env w :
  generate_gee_tiles_full.get_census_tracts_layer env w
  = (outcome (Spec.styled env Spec.tracts),
     emit w [] [] (Spec.layer_trace env Spec.tracts)).
Proof. apply get_census_tracts_layer_run. Qed.

Lemma get_block_groups_layer_run env w :
  generate_gee_tiles_full.get_block_groups_layer env w
  = (outcome (Spec.styled env Spec.block_groups),
     emit w [] [Spec.fallback_notice env]
       (Spec.layer_trace env Spec.block_groups)).
Proof.
  unfold generate_gee_tiles_full.get_block_groups_layer, Spec.styled,
    Spec.layer_trace, Spec.select, Spec.fetch_event, Spec.fallback_notice.
  unfold_monad. cbn. repeat next_call.
Qed.

(** From here on the calls of a layer are taken as a whole. *)
#[local] Arguments Spec.layer_trace : simpl never.
#[local] Arguments Spec.styled : simpl never.

(** Case analysis on the tile fetcher of a tile descriptor. *)
Ltac case_fetcher :=
  match goal with
  | |- context [tile_fetcher ?m] =>
      let E := fresh "E" in
      destruct (tile_fetcher m) eqn:E; cbn; rewrite ?E; cbn; norm_world; try done
  end.

Lemma generate_tile_url_run env w :
  generate_gee_tiles.generate_tile_url env w
  = (inr (Spec.single_result (Spec.resolve env Spec.tracts)),
     emit w [] [] (Spec.resolve_trace env Spec.tracts)).
Proof.
  unfold generate_gee_tiles.generate_tile_url. unfold_monad.
  rewrite get_census_tracts_layer_run.
  unfold Spec.resolve, Spec.descriptor, Spec.resolve_trace, Spec.tile_result,
    getitem_tile_fetcher, map_get.
  destruct (Spec.styled env Spec.tracts) as [e|img]; cbn; norm_world;
    rewrite ?app_nil_r; [done|].
  next_call. case_fetcher.
Qed.

Lemma generate_tile_urls_run env w :
  generate_gee_tiles_full.generate_tile_urls env w
  = (inr (Spec.full_result (Spec.resolve env Spec.tracts)
            (Spec.resolve env Spec.block_groups)),
     emit w [] (Spec.full_progress env) (Spec.full_trace env)).
Proof.
  unfold generate_gee_tiles_full.generate_tile_urls. unfold_monad.
  unfold Spec.full_progress, Spec.full_trace, Spec.full_result.
  unfold Spec.resolve, Spec.descriptor, Spec.resolve_trace, Spec.tile_result,
    getitem_tile_fetcher, map_get.
  cbn. norm_world. rewrite get_census_tracts_layer_full_run.
  destruct (Spec.styled env Spec.tracts) as [e|img]; cbn; norm_world;
    rewrite ?app_nil_r; [done|].
  next_call. case_fetcher.
  rewrite get_block_groups_layer_run.
  destruct (Spec.styled env Spec.block_groups) as [e'|img']; cbn; norm_world;
    rewrite ?app_nil_r, <- ?app_assoc; [done|].
  next_call. case_fetcher.
Qed.

(** ** The Result Reporter *)

#[local] Arguments json_dumps : simpl never.
#[local] Arguments Spec.resolve_trace : simpl never.
#[local] Arguments Spec.full_trace : simpl never.
#[local] Arguments Spec.full_progress : simpl never.
#[local] Arguments Spec.auth_trace : simpl never.
#[local] Arguments Spec.auth_line : simpl never.

Lemma main_run env :
  run (generate_gee_tiles.main env) = Spec.single_run env.
Proof.
  unfold run, generate_gee_tiles.main, Spec.single_run. unfold_monad.
  rewrite authenticate_gee_run.
  destruct (Spec.authenticate env) as [e|[]]; cbn; [done|].
  norm_world. rewrite generate_tile_url_run.
  destruct (Spec.resolve env Spec.tracts) as [e|[u i]]; cbn; norm_world; done.
Qed.

Lemma main_full_run env :
  run (generate_gee_tiles_full.main env) = Spec.full_run env.
Proof.
  unfold run, generate_gee_tiles_full.main, Spec.full_run. unfold_monad.
  rewrite authenticate_gee_full_run.
  destruct (Spec.authenticate env) as [e|[]]; cbn; [done|].
  norm_world. rewrite generate_tile_urls_run.
  destruct (Spec.resolve env Spec.tracts) as [e|[u1 i1]]; cbn; norm_world; [done|].
  destruct (Spec.resolve env Spec.block_groups) as [e|[u2 i2]]; cbn; norm_world;
    done.
Qed.

(** Unfolds the expected run down to the answers of the library, and
    walks through them. *)
Ltac unfold_run :=
  unfold Spec.single_run, Spec.full_run, Spec.full_trace, Spec.full_progress,
    Spec.full_result, Spec.single_result, Spec.resolve_trace, Spec.layer_trace,
    Spec.resolve, Spec.descriptor, Spec.styled, Spec.select, Spec.tile_result,
    Spec.auth_trace, Spec.auth_line, Spec.authenticate, Spec.fetch_event,
    Spec.fallback_notice in *;
  cbn in *.

Ltac next_step := first [next_call | case_fetcher].

(** ** The claims *)

(** C7. The Authenticator makes one attempt and no more: it builds the
    credentials once and, when that answered, initialises the session
    once.  When either call raises it returns [False] and the one line
    it writes on standard error carries [str] of that exception; when
    both answer it returns [True] and writes the one success line.  It
    never raises and never writes on standard output.  Both scripts
    behave so from any world, and a whole run of either script builds
    the credentials exactly once and initialises at most once. *)
Theorem authenticator_single_attempt env w :
  let email := "882446104421-compute@developer.gserviceaccount.com" in
  let key_file := os_path_join (dirname_file env) [".."; "gee_creds.json"] in
  let project := "msads-mba-autumn-2025-team-1" in
  let failed e := "✗ Failed to authenticate with GEE: " +:+ exc_str e in
  let succeeded := "✓ Successfully authenticated with Google Earth Engine" in
  let expected :=
    match ServiceAccountCredentials env email key_file with
    | inl e =>
        (inr false,
         emit w [] [failed e] [EvServiceAccountCredentials email key_file (inl e)])
    | inr credentials =>
        match Initialize env credentials project with
        | inl e =>
            (inr false,
             emit w [] [failed e]
               [EvServiceAccountCredentials email key_file (inr tt);
                EvInitialize project (inl e)])
        | inr _ =>
            (inr true,
             emit w [] [succeeded]
               [EvServiceAccountCredentials email key_file (inr tt);
                EvInitialize project (inr tt)])
        end
    end in
  generate_gee_tiles.authenticate_gee env w = expected
  /\ generate_gee_tiles_full.authenticate_gee env w = expected
  /\ count_events is_credentials_event (run (generate_gee_tiles.main env)).2 = 1%nat
  /\ count_events is_credentials_event (run (generate_gee_tiles_full.main env)).2 = 1%nat
  /\ (count_events is_initialize_event (run (generate_gee_tiles.main env)).2 <= 1)%nat
  /\ (count_events is_initialize_event (run (generate_gee_tiles_full.main env)).2 <= 1)%nat.
Proof.
  cbv zeta.
  assert (Hauth : generate_gee_tiles.authenticate_gee env w
    = match ServiceAccountCredentials env generate_gee_tiles.SERVICE_ACCOUNT
              (generate_gee_tiles.CREDENTIALS_PATH env) with
      | inl e =>
          (inr false,
           emit w [] ["✗ Failed to authenticate with GEE: " +:+ exc_str e]
             [EvServiceAccountCredentials generate_gee_tiles.SERVICE_ACCOUNT
                (generate_gee_tiles.CREDENTIALS_PATH env) (inl e)])
      | inr credentials =>
          match Initialize env credentials generate_gee_tiles.PROJECT_ID with
          | inl e =>
              (inr false,
               emit w [] ["✗ Failed to authenticate with GEE: " +:+ exc_str e]
                 [EvServiceAccountCredentials generate_gee_tiles.SERVICE_ACCOUNT
                    (generate_gee_tiles.CREDENTIALS_PATH env) (inr tt);
                  EvInitialize generate_gee_tiles.PROJECT_ID (inl e)])
          | inr _ =>
              (inr true,
               emit w [] ["✓ Successfully authenticated with Google Earth Engine"]
                 [EvServiceAccountCredentials generate_gee_tiles.SERVICE_ACCOUNT
                    (generate_gee_tiles.CREDENTIALS_PATH env) (inr tt);
                  EvInitialize generate_gee_tiles.PROJECT_ID (inr tt)])
          end
      end).
  { rewrite authenticate_gee_run.
    unfold Spec.auth_line, Spec.auth_trace, Spec.authenticate.
    repeat next_call. }
  split; [exact Hauth|]. split; [exact Hauth|].
  rewrite main_run, main_full_run. unfold count_events.
  repeat split; unfold_run; repeat next_step; cbn; lia.
Qed.

(** C2. When the Authenticator fails (building the credentials or
    initialising the session raised), either script ends with exit code
    1, has written nothing on standard output, and has made no call of
    the Layer Resolver: no fetch, no style, no tile descriptor. *)
Theorem auth_failure_short_circuits env e :
  Spec.authenticate env = inl e ->
  let single := run (generate_gee_tiles.main env) in
  let full := run (generate_gee_tiles_full.main env) in
  (single.1 = 1
   /\ stdout single.2 = []
   /\ stream_text (stdout single.2) = ""
   /\ count_events is_resolver_event single.2 = 0%nat)
  /\ (full.1 = 1
      /\ stdout full.2 = []
      /\ stream_text (stdout full.2) = ""
      /\ count_events is_resolver_event full.2 = 0%nat).
Proof.
  intros Hauth. cbv zeta. rewrite main_run, main_full_run.
  unfold Spec.single_run, Spec.full_run, count_events. rewrite Hauth. cbn.
  unfold Spec.authenticate in Hauth. unfold Spec.auth_trace.
  repeat split; repeat next_call; congruence.
Qed.

Lemma auth_failure_short_circuits_witness :
  Spec.authenticate rejecting_env = inl (mkException "EEException" "invalid_grant")
  /\ (run (generate_gee_tiles.main rejecting_env)).1 = 1
  /\ (run (generate_gee_tiles_full.main rejecting_env)).1 = 1.
Proof.
  split; [reflexivity|].
  pose proof (auth_failure_short_circuits rejecting_env
                (mkException "EEException" "invalid_grant") eq_refl) as H.
  cbv zeta in H. split; apply H.
Defined.

(** C3. The block-group resolution walks its candidates in order.  When
    the candidate at position [i] is the first whose fetch does not
    raise, the resolution has fetched the candidates up to it, each
    once and in order, fetches none after it, and goes on to style the
    collection that this fetch answered. *)
Theorem fallback_selects_first_success env w i c fc :
  Spec.candidates Spec.block_groups !! i = Some c ->
  new_FeatureCollection env c = inr fc ->
  (forall j c', (j < i)%nat -> Spec.candidates Spec.block_groups !! j = Some c' ->
                is_ok (new_FeatureCollection env c') = false) ->
  exists notice,
    generate_gee_tiles_full.get_block_groups_layer env w
    = call_style env fc (Spec.layer_style Spec.block_groups)
        (emit w [] [notice]
           (map (Spec.fetch_event env)
              (take (S i) (Spec.candidates Spec.block_groups)))).
Proof.
  intros Hc Hfc Hbefore.
  unfold generate_gee_tiles_full.get_block_groups_layer. unfold_monad.
  destruct i as [|[|[|i]]]; cbn in Hc; simplify_eq.
  - eexists. unfold Spec.fetch_event; cbn. rewrite Hfc; cbn. norm_world.
    by destruct (style env fc _).
  - pose proof (Hbefore 0%nat _ ltac:(lia) eq_refl) as H0; cbn in H0.
    destruct (new_FeatureCollection env "TIGER/2010/BG") eqn:E0; [|discriminate H0].
    eexists. unfold Spec.fetch_event; cbn. rewrite E0, Hfc; cbn. norm_world.
    by destruct (style env fc _).
  - pose proof (Hbefore 0%nat _ ltac:(lia) eq_refl) as H0; cbn in H0.
    pose proof (Hbefore 1%nat _ ltac:(lia) eq_refl) as H1; cbn in H1.
    destruct (new_FeatureCollection env "TIGER/2010/BG") eqn:E0; [|discriminate H0].
    destruct (new_FeatureCollection env "TIGER/2010/BlockGroups") eqn:E1; [|discriminate H1].
    eexists. unfold Spec.fetch_event; cbn. rewrite E0, E1, Hfc; cbn. norm_world.
    by destruct (style env fc _).
Qed.

(** Candidate "A" fails and "B" succeeds: "B" is selected, "C" is never
    attempted. *)
Lemma fallback_selects_first_success_witness :
  let r := generate_gee_tiles_full.get_block_groups_layer no_BG_env initial_world in
  is_ok (new_FeatureCollection no_BG_env "TIGER/2010/BG") = false
  /\ new_FeatureCollection no_BG_env "TIGER/2010/BlockGroups"
     = inr "TIGER/2010/BlockGroups"
  /\ r.1 = inr "TIGER/2010/BlockGroups"
  /\ events r.2
     = [EvFeatureCollection "TIGER/2010/BG"
          (inl (mkException "EEException" "Collection asset not found."));
        EvFeatureCollection "TIGER/2010/BlockGroups" (inr tt);
        EvStyle {| color := "9333ea"; width := 1; fillColor := "00000000" |}
          (inr tt)].
Proof.
  cbv zeta. split; [reflexivity|]. split; [reflexivity|].
  destruct (fallback_selects_first_success no_BG_env initial_world 1
              "TIGER/2010/BlockGroups" "TIGER/2010/BlockGroups"
              eq_refl eq_refl) as [notice H].
  - intros [|j] c' Hj Hc'; [|lia]. by injection Hc' as <-.
  - rewrite H. split; reflexivity.
Defined.

(** C10. The tile-URL generation step is total at its boundary.
    Whatever the library does, [generate_tile_url] and
    [generate_tile_urls] return a dict and raise nothing; the dict has a
    boolean under ['success'] and, when that is [False], a string under
    ['error'].  In particular, when the tracts resolved and all three
    block-group candidates raise, the exception of the third, which no
    [try] of the layer function guards, ends as the ['error'] of the
    returned dict. *)
Theorem generation_is_total env w :
  (exists d w',
      generate_gee_tiles.generate_tile_url env w = (inr d, w')
      /\ well_formed_result d = true)
  /\ (exists d w',
         generate_gee_tiles_full.generate_tile_urls env w = (inr d, w')
         /\ well_formed_result d = true
         /\ match Spec.resolve env Spec.tracts,
                 new_FeatureCollection env "TIGER/2010/BG",
                 new_FeatureCollection env "TIGER/2010/BlockGroups",
                 new_FeatureCollection env "TIGER/2010/Blocks_DP1" with
            | inr _, inl _, inl _, inl e3 =>
                d = [("success", VBool false); ("error", VStr (exc_str e3))]
            | _, _, _, _ => True
            end).
Proof.
  split.
  - eexists _, _. split; [apply generate_tile_url_run|].
    by destruct (Spec.resolve env Spec.tracts).
  - eexists _, _. split; [apply generate_tile_urls_run|]. split.
    + by destruct (Spec.resolve env Spec.tracts),
           (Spec.resolve env Spec.block_groups).
    + destruct (Spec.resolve env Spec.tracts) as [e|t]; [done|].
      unfold Spec.full_result, Spec.resolve, Spec.descriptor, Spec.styled,
        Spec.select; cbn.
      destruct (new_FeatureCollection env "TIGER/2010/BG"); [|done].
      destruct (new_FeatureCollection env "TIGER/2010/BlockGroups"); [|done].
      by destruct (new_FeatureCollection env "TIGER/2010/Blocks_DP1").
Qed.

(** C5. Single-layer scenario.  With a working session and the tract
    layer resolved to the tile URL [https://example.com/{z}/{x}/{y}.png]
    and the map id [abc123], the script ends with exit code 0 and its
    only print on standard output is the JSON object with the fields
    [success], [tile_url], [map_id] in this order, as
    [json.dumps(_, indent=2)] lays it out: one field a line. *)
Theorem single_layer_scenario env :
  Spec.authenticate env = inr tt ->
  Spec.resolve env Spec.tracts
  = inr {| Spec.tile_url := "https://example.com/{z}/{x}/{y}.png";
           Spec.map_id := "abc123" |} ->
  let object :=
    [("success", VBool true);
     ("tile_url", VStr "https://example.com/{z}/{x}/{y}.png");
     ("map_id", VStr "abc123")] in
  let text :=
    "{" +:+ newline
    +:+ "  " +:+ dquote +:+ "success" +:+ dquote +:+ ": true," +:+ newline
    +:+ "  " +:+ dquote +:+ "tile_url" +:+ dquote +:+ ": "
    +:+ dquote +:+ "https://example.com/{z}/{x}/{y}.png" +:+ dquote +:+ ","
    +:+ newline
    +:+ "  " +:+ dquote +:+ "map_id" +:+ dquote +:+ ": "
    +:+ dquote +:+ "abc123" +:+ dquote +:+ newline
    +:+ "}" in
  let r := run (generate_gee_tiles.main env) in
  r.1 = 0
  /\ stdout r.2 = [json_dumps object 2]
  /\ json_dumps object 2 = text
  /\ stream_text (stdout r.2) = text +:+ newline.
Proof.
  intros Hauth Htracts. cbv zeta. rewrite main_run.
  unfold Spec.single_run. rewrite Hauth, Htracts. cbn.
  repeat split; vm_compute; reflexivity.
Qed.

Lemma single_layer_scenario_witness :
  Spec.authenticate scenario_env = inr tt
  /\ Spec.resolve scenario_env Spec.tracts
     = inr {| Spec.tile_url := "https://example.com/{z}/{x}/{y}.png";
              Spec.map_id := "abc123" |}
  /\ (run (generate_gee_tiles.main scenario_env)).1 = 0.
Proof.
  assert (H1 : Spec.authenticate scenario_env = inr tt) by reflexivity.
  assert (H2 : Spec.resolve scenario_env Spec.tracts
               = inr {| Spec.tile_url := "https://example.com/{z}/{x}/{y}.png";
                        Spec.map_id := "abc123" |}) by (vm_compute; reflexivity).
  split; [exact H1|]. split; [exact H2|].
  exact (proj1 (single_layer_scenario scenario_env H1 H2)).
Defined.

Lemma string_app_assoc (a b c : string) : (a +:+ b) +:+ c = a +:+ b +:+ c.
Proof.
  induction a as [|x a IH]; [done|].
  unfold String.app in *; cbn. by rewrite IH.
Qed.

(** C6. Dual-layer scenario.  When both layers resolve, the tracts to
    [T1]/[M1] and the block groups to [T2]/[M2], the script ends with
    exit code 0 and its only print on standard output is the JSON object
    with the fields [success], [tracts_tile_url], [tracts_map_id],
    [block_groups_tile_url], [block_groups_map_id] in this order, one
    field a line, each string in its JSON form.  The layers are resolved in a fixed order: after the two calls of the
    Authenticator come the fetch, the style and the tile descriptor of
    the tracts, and only then the fetches, the style and the tile
    descriptor of the block groups. *)
Theorem dual_layer_scenario env T1 M1 T2 M2 :
  Spec.authenticate env = inr tt ->
  Spec.resolve env Spec.tracts = inr {| Spec.tile_url := T1; Spec.map_id := M1 |} ->
  Spec.resolve env Spec.block_groups
  = inr {| Spec.tile_url := T2; Spec.map_id := M2 |} ->
  let object :=
    [("success", VBool true);
     ("tracts_tile_url", VStr T1);
     ("tracts_map_id", VStr M1);
     ("block_groups_tile_url", VStr T2);
     ("block_groups_map_id", VStr M2)] in
  let text :=
    "{" +:+ newline
    +:+ "  " +:+ dquote +:+ "success" +:+ dquote +:+ ": true," +:+ newline
    +:+ "  " +:+ dquote +:+ "tracts_tile_url" +:+ dquote +:+ ": "
    +:+ encode_basestring_ascii T1 +:+ "," +:+ newline
    +:+ "  " +:+ dquote +:+ "tracts_map_id" +:+ dquote +:+ ": "
    +:+ encode_basestring_ascii M1 +:+ "," +:+ newline
    +:+ "  " +:+ dquote +:+ "block_groups_tile_url" +:+ dquote +:+ ": "
    +:+ encode_basestring_ascii T2 +:+ "," +:+ newline
    +:+ "  " +:+ dquote +:+ "block_groups_map_id" +:+ dquote +:+ ": "
    +:+ encode_basestring_ascii M2 +:+ newline
    +:+ "}" in
  let r := run (generate_gee_tiles_full.main env) in
  r.1 = 0
  /\ stdout r.2 = [json_dumps object 2]
  /\ json_dumps object 2 = text
  /\ exists m1 m2,
       Spec.tile_result m1 = inr {| Spec.tile_url := T1; Spec.map_id := M1 |}
       /\ Spec.tile_result m2 = inr {| Spec.tile_url := T2; Spec.map_id := M2 |}
       /\ events r.2
          = [EvServiceAccountCredentials
               "882446104421-compute@developer.gserviceaccount.com"
               (os_path_join (dirname_file env) [".."; "gee_creds.json"]) (inr tt);
             EvInitialize "msads-mba-autumn-2025-team-1" (inr tt);
             EvFeatureCollection "TIGER/2010/Tracts_DP1" (inr tt);
             EvStyle (Spec.layer_style Spec.tracts) (inr tt);
             EvGetMapId (inr m1)]
            ++ map (Spec.fetch_event env)
                 (Spec.attempted env (Spec.candidates Spec.block_groups))
            ++ [EvStyle (Spec.layer_style Spec.block_groups) (inr tt);
                EvGetMapId (inr m2)].
Proof.
  intros Hauth Htracts Hbg. cbv zeta. rewrite main_full_run.
  unfold Spec.full_run. rewrite Hauth, Htracts, Hbg. cbn.
  split; [done|]. split; [done|].
  split.
  { unfold json_dumps. cbn [json_encode]. by rewrite !string_app_assoc. }
  unfold Spec.full_trace. rewrite Htracts.
  unfold_run.
  repeat next_step; simplify_eq; eexists _, _; repeat split; try done;
    by repeat case_match.
Qed.

Lemma dual_layer_scenario_witness :
  Spec.authenticate scenario_env = inr tt
  /\ Spec.resolve scenario_env Spec.tracts
     = inr {| Spec.tile_url := "https://example.com/{z}/{x}/{y}.png";
              Spec.map_id := "abc123" |}
  /\ Spec.resolve scenario_env Spec.block_groups
     = inr {| Spec.tile_url := "https://example.com/bg/{z}/{x}/{y}.png";
              Spec.map_id := "def456" |}
  /\ (run (generate_gee_tiles_full.main scenario_env)).1 = 0.
Proof.
  assert (H1 : Spec.authenticate scenario_env = inr tt) by reflexivity.
  assert (H2 : Spec.resolve scenario_env Spec.tracts
               = inr {| Spec.tile_url := "https://example.com/{z}/{x}/{y}.png";
                        Spec.map_id := "abc123" |}) by (vm_compute; reflexivity).
  assert (H3 : Spec.resolve scenario_env Spec.block_groups
               = inr {| Spec.tile_url := "https://example.com/bg/{z}/{x}/{y}.png";
                        Spec.map_id := "def456" |}) by (vm_compute; reflexivity).
  split; [exact H1|]. split; [exact H2|]. split; [exact H3|].
  exact (proj1 (dual_layer_scenario scenario_env _ _ _ _ H1 H2 H3)).
Defined.

(** C9. A tile descriptor without ['mapid'] is reported with the map
    identifier [unknown]; the tile URL is still the [url_format] of the
    descriptor's tile fetcher.  With a working session and the tract
    descriptor [m1] carrying [o1] under ['mapid'] (nothing, or a
    string), the single-layer script prints the object whose [map_id]
    is the string of [m1], or "unknown" when [m1] lacks it, whatever
    the library does about the block groups, which that script never
    asks for.  When the block groups have a descriptor [m2] too,
    carrying [o2], the dual-layer script prints the object whose
    [tracts_map_id] and [block_groups_map_id] are the strings of [m1]
    and [m2], each "unknown" when its descriptor lacks it. *)
Theorem missing_mapid_reported_unknown env m1 f1 (o1 : option string) :
  Spec.authenticate env = inr tt ->
  Spec.descriptor env Spec.tracts = inr m1 ->
  tile_fetcher m1 = Some f1 ->
  entries m1 !! "mapid" = o1 ->
  let reported (o : option string) :=
    match o with Some i => i | None => "unknown" end in
  stdout (run (generate_gee_tiles.main env)).2
  = [json_dumps [("success", VBool true);
                 ("tile_url", VStr (url_format f1));
                 ("map_id", VStr (reported o1))] 2]
  /\ (forall m2 f2 (o2 : option string),
        Spec.descriptor env Spec.block_groups = inr m2 ->
        tile_fetcher m2 = Some f2 ->
        entries m2 !! "mapid" = o2 ->
        stdout (run (generate_gee_tiles_full.main env)).2
        = [json_dumps [("success", VBool true);
                       ("tracts_tile_url", VStr (url_format f1));
                       ("tracts_map_id", VStr (reported o1));
                       ("block_groups_tile_url", VStr (url_format f2));
                       ("block_groups_map_id", VStr (reported o2))] 2]).
Proof.
  intros Hauth Hm1 Hf1 Hid1.
  assert (Ht : Spec.resolve env Spec.tracts
               = inr {| Spec.tile_url := url_format f1;
                        Spec.map_id := default "unknown" o1 |}).
  { unfold Spec.resolve, Spec.tile_result. by rewrite Hm1, Hf1, Hid1. }
  cbv zeta. split.
  - rewrite main_run. unfold Spec.single_run.
    rewrite Hauth, Ht. cbn. by destruct o1.
  - intros m2 f2 o2 Hm2 Hf2 Hid2.
    assert (Hb : Spec.resolve env Spec.block_groups
                 = inr {| Spec.tile_url := url_format f2;
                          Spec.map_id := default "unknown" o2 |}).
    { unfold Spec.resolve, Spec.tile_result. by rewrite Hm2, Hf2, Hid2. }
    rewrite main_full_run. unfold Spec.full_run.
    rewrite Hauth, Ht, Hb. cbn. by destruct o1, o2.
Qed.

Lemma missing_mapid_reported_unknown_witness :
  is_ok (Spec.resolve tracts_only_env Spec.block_groups) = false
  /\ stdout (run (generate_gee_tiles.main tracts_only_env)).2
     = [json_dumps [("success", VBool true);
                    ("tile_url", VStr "https://t.test/{z}/{x}/{y}");
                    ("map_id", VStr "unknown")] 2]
  /\ stdout (run (generate_gee_tiles_full.main no_mapid_env)).2
     = [json_dumps [("success", VBool true);
                    ("tracts_tile_url", VStr "https://t.test/{z}/{x}/{y}");
                    ("tracts_map_id", VStr "unknown");
                    ("block_groups_tile_url", VStr "https://b.test/{z}/{x}/{y}");
                    ("block_groups_map_id", VStr "bg-1")] 2].
Proof.
  split; [reflexivity|]. split.
  - exact (proj1 (missing_mapid_reported_unknown tracts_only_env
             (mkMapIdDict (Some (mkTileFetcher "https://t.test/{z}/{x}/{y}"))
                {["token" := "tk"]})
             (mkTileFetcher "https://t.test/{z}/{x}/{y}") None
             eq_refl eq_refl eq_refl eq_refl)).
  - exact (proj2 (missing_mapid_reported_unknown no_mapid_env
             (mkMapIdDict (Some (mkTileFetcher "https://t.test/{z}/{x}/{y}"))
                {["token" := "tk"]})
             (mkTileFetcher "https://t.test/{z}/{x}/{y}") None
             eq_refl eq_refl eq_refl eq_refl)
             (mkMapIdDict (Some (mkTileFetcher "https://b.test/{z}/{x}/{y}"))
                {["mapid" := "bg-1"]})
             (mkTileFetcher "https://b.test/{z}/{x}/{y}") (Some "bg-1")
             eq_refl eq_refl eq_refl).
Defined.

(** ** Determinism *)





(** ** All or nothing *)






(** ** Failure of a layer *)






(** * Further properties of the scripts *)

(** X1. Neither [main] lets an exception escape: from any world it
    either returns or leaves by [sys.exit(1)].  In particular the
    subscripts by which the dual-layer [main] reads the result back
    ([result['data']['tracts']['tile_url']] and the like) find every key
    that [generate_tile_urls] stored. *)
Theorem main_never_raises env w :
  ends_cleanly (generate_gee_tiles.main env w).1
  /\ ends_cleanly (generate_gee_tiles_full.main env w).1.
Proof.
  unfold ends_cleanly, generate_gee_tiles.main, generate_gee_tiles_full.main.
  unfold_monad. rewrite authenticate_gee_run, authenticate_gee_full_run.
  destruct (Spec.authenticate env) as [e|[]]; cbn; [by split; right|].
  rewrite generate_tile_url_run, generate_tile_urls_run.
  split.
  - destruct (Spec.resolve env Spec.tracts) as [e|t]; cbn; [by right|by left].
  - destruct (Spec.resolve env Spec.tracts) as [e|t1]; cbn; [by right|].
    destruct (Spec.resolve env Spec.block_groups) as [e|t2]; cbn;
      [by right|by left].
Qed.

(** X2. In the dual-layer generation the block groups are reached only
    through the tracts.  When the tracts fail with [e], the function
    returns the failure object of [e], has written only its first
    progress line, and has made no call of the block-group layer: no
    fetch of a block-group candidate, no style call in its colour. *)
Theorem tracts_failure_skips_block_groups env e w :
  Spec.resolve env Spec.tracts = inl e ->
  exists evs,
    generate_gee_tiles_full.generate_tile_urls env w
    = (inr [("success", VBool false); ("error", VStr (exc_str e))],
       emit w [] ["Generating tile URL for census tracts..."] evs)
    /\ List.filter is_block_group_event evs = [].
Proof.
  intros Ht. exists (Spec.resolve_trace env Spec.tracts).
  rewrite generate_tile_urls_run.
  unfold Spec.full_progress, Spec.full_trace. rewrite Ht. cbn.
  rewrite app_nil_r. split; [done|].
  clear Ht. unfold_run. repeat next_step.
Qed.

Lemma tracts_failure_skips_block_groups_witness :
  Spec.resolve no_fetcher_env Spec.tracts = inl (KeyError "tile_fetcher")
  /\ (generate_gee_tiles_full.generate_tile_urls no_fetcher_env initial_world).1
     = inr [("success", VBool false); ("error", VStr "'tile_fetcher'")].
Proof.
  split; [reflexivity|].
  destruct (tracts_failure_skips_block_groups no_fetcher_env
              (KeyError "tile_fetcher") initial_world eq_refl) as (evs & H & _).
  by rewrite H.
Defined.



(** X4. When all three block-group candidates raise, the layer function
    raises the exception of the third: the two bare [except:] clauses
    swallowed the first two, whose messages appear nowhere.  It has
    fetched each candidate once, in order, has written the one warning
    line, and has made no style call. *)
Theorem all_candidates_fail env e1 e2 e3 w :
  new_FeatureCollection env "TIGER/2010/BG" = inl e1 ->
  new_FeatureCollection env "TIGER/2010/BlockGroups" = inl e2 ->
  new_FeatureCollection env "TIGER/2010/Blocks_DP1" = inl e3 ->
  generate_gee_tiles_full.get_block_groups_layer env w
  = (inl (Exc e3),
     emit w [] ["⚠ Block groups dataset not found, using blocks"]
       [EvFeatureCollection "TIGER/2010/BG" (inl e1);
        EvFeatureCollection "TIGER/2010/BlockGroups" (inl e2);
        EvFeatureCollection "TIGER/2010/Blocks_DP1" (inl e3)]).
Proof.
  intros H1 H2 H3. rewrite get_block_groups_layer_run.
  unfold Spec.styled, Spec.layer_trace, Spec.select, Spec.fallback_notice,
    Spec.fetch_event; cbn.
  repeat (rewrite ?H1, ?H2, ?H3; cbn). by rewrite ?app_nil_r.
Qed.

Lemma all_candidates_fail_witness :
  (generate_gee_tiles_full.get_block_groups_layer no_dataset_env initial_world).1
  = inl (Exc (mkException "EEException" "not found: TIGER/2010/Blocks_DP1")).
Proof.
  by rewrite (all_candidates_fail no_dataset_env _ _ _ initial_world
                eq_refl eq_refl eq_refl).
Defined.

(** X5. The notice of the block-group layer names the candidate that is
    styled.  Whenever the layer function returns an image, it is the
    styled collection of the selected candidate, the function has
    written exactly one line on standard error, the notice of that
    candidate, and nothing on standard output. *)
Theorem fallback_notice_names_selection env w img w' :
  generate_gee_tiles_full.get_block_groups_layer env w = (inr img, w') ->
  exists c fc,
    Spec.select env Spec.block_groups = inr (c, fc)
    /\ style env fc (Spec.layer_style Spec.block_groups) = inr img
    /\ stdout w' = stdout w
    /\ stderr w' = stderr w ++ [notice_for c].
Proof.
  rewrite get_block_groups_layer_run. unfold Spec.styled.
  destruct (Spec.select env Spec.block_groups) as [e|[c fc]] eqn:Hsel;
    [discriminate|].
  intros H. exists c, fc. split; [done|].
  destruct (style env fc _) as [e|img'] eqn:Hst; cbn in H; [discriminate|].
  injection H as <- <-. split; [done|]. cbn. rewrite app_nil_r.
  split; [done|]. f_equal. f_equal.
  unfold Spec.select, Spec.fallback_notice in *; cbn in Hsel.
  repeat case_match; by simplify_eq.
Qed.

Lemma fallback_notice_names_selection_witness :
  stderr (generate_gee_tiles_full.get_block_groups_layer no_BG_env initial_world).2
  = ["✓ Using TIGER/2010/BlockGroups dataset"].
Proof.
  destruct (generate_gee_tiles_full.get_block_groups_layer no_BG_env initial_world)
    as [r w'] eqn:Hrun.
  assert (Hr : r = inr "TIGER/2010/BlockGroups")
    by (apply (f_equal fst) in Hrun; vm_compute in Hrun; congruence).
  subst r.
  destruct (fallback_notice_names_selection no_BG_env initial_world _ _ Hrun)
    as (c & fc & Hsel & _ & _ & Herr).
  vm_compute in Hsel. injection Hsel as <- <-. exact Herr.
Defined.

(** X6. The layer function of the tracts has no handler of its own and
    prints nothing.  It fetches ["TIGER/2010/Tracts_DP1"] and styles the
    collection with a blue outline of width 1 and a transparent fill;
    an exception of the fetch or of the style call goes to the caller
    as it is, and after a failed fetch no style call is made.  The two
    scripts hold the same function. *)
Theorem census_tracts_layer_propagates env w :
  let blue := {| color := "1f77b4"; width := 1; fillColor := "00000000" |} in
  let fetched := EvFeatureCollection "TIGER/2010/Tracts_DP1" in
  let expected :=
    match new_FeatureCollection env "TIGER/2010/Tracts_DP1" with
    | inl e => (inl (Exc e), emit w [] [] [fetched (inl e)])
    | inr fc =>
        match style env fc blue with
        | inl e =>
            (inl (Exc e), emit w [] [] [fetched (inr tt); EvStyle blue (inl e)])
        | inr img =>
            (inr img, emit w [] [] [fetched (inr tt); EvStyle blue (inr tt)])
        end
    end in
  generate_gee_tiles.get_census_tracts_layer env w = expected
  /\ generate_gee_tiles_full.get_census_tracts_layer env w = expected.
Proof.
  cbv zeta. rewrite get_census_tracts_layer_run, get_census_tracts_layer_full_run.
  unfold Spec.styled, Spec.layer_trace, Spec.select, Spec.fetch_event; cbn.
  split; repeat next_call.
Qed.

(** X7. The last line on standard error tells how the run ended: a run
    exits with 0 exactly when that line is the success banner of its
    script. *)
Theorem last_line_tells_outcome env :
  let single := run (generate_gee_tiles.main env) in
  let full := run (generate_gee_tiles_full.main env) in
  (single.1 = 0
   <-> last (stderr single.2) = Some "✓ Tile URL generated successfully")
  /\ (full.1 = 0
      <-> last (stderr full.2)
          = Some (newline +:+ "✅ All tile URLs generated successfully"
                  +:+ newline)).
Proof.
  cbv zeta. rewrite main_run, main_full_run.
  unfold Spec.single_run, Spec.full_run, Spec.full_progress, Spec.auth_line.
  destruct (Spec.authenticate env) as [ea|[]];
    destruct (Spec.resolve env Spec.tracts) as [e1|t1];
    destruct (Spec.resolve env Spec.block_groups) as [e2|t2]; cbn.
  all: split; (split; [try done; discriminate|]).
  all: try done.
  all: intros H; exfalso; vm_compute in H; discriminate H.
Qed.

(** X8. Standard output belongs to [main] alone.  The Authenticator,
    the two layer functions and the two generation functions leave it
    as they found it, whatever the library does; the single-layer
    generation leaves standard error untouched as well. *)
Theorem only_main_writes_stdout env w :
  stdout (generate_gee_tiles.authenticate_gee env w).2 = stdout w
  /\ stdout (generate_gee_tiles_full.authenticate_gee env w).2 = stdout w
  /\ stdout (generate_gee_tiles.get_census_tracts_layer env w).2 = stdout w
  /\ stdout (generate_gee_tiles_full.get_census_tracts_layer env w).2 = stdout w
  /\ stdout (generate_gee_tiles_full.get_block_groups_layer env w).2 = stdout w
  /\ stdout (generate_gee_tiles.generate_tile_url env w).2 = stdout w
  /\ stderr (generate_gee_tiles.generate_tile_url env w).2 = stderr w
  /\ stdout (generate_gee_tiles_full.generate_tile_urls env w).2 = stdout w.
Proof.
  rewrite authenticate_gee_run, authenticate_gee_full_run,
    get_census_tracts_layer_run, get_census_tracts_layer_full_run,
    get_block_groups_layer_run, generate_tile_url_run, generate_tile_urls_run.
  cbn. by rewrite !app_nil_r.
Qed.

(** X9. The dual-layer script begins as the single-layer script does:
    against the same library, the calls of the single-layer run are an
    initial segment of the calls of the dual-layer run, and where the
    dual-layer run exits with 0 so does the single-layer run. *)
Theorem full_extends_single env :
  let single := run (generate_gee_tiles.main env) in
  let full := run (generate_gee_tiles_full.main env) in
  events single.2 `prefix_of` events full.2
  /\ (full.1 = 0 -> single.1 = 0).
Proof.
  cbv zeta. rewrite main_run, main_full_run.
  unfold Spec.single_run, Spec.full_run, Spec.full_trace.
  destruct (Spec.authenticate env) as [ea|[]]; cbn; [done|].
  destruct (Spec.resolve env Spec.tracts) as [e1|t1]; cbn.
  - split; [|done]. rewrite app_nil_r. done.
  - destruct (Spec.resolve env Spec.block_groups) as [e2|t2]; cbn;
      (split; [by apply prefix_app, prefix_app_r|done]).
Qed.

Lemma full_extends_single_witness :
  (run (generate_gee_tiles_full.main scenario_env)).1 = 0
  /\ (run (generate_gee_tiles.main scenario_env)).1 = 0.
Proof.
  assert (H : (run (generate_gee_tiles_full.main scenario_env)).1 = 0)
    by (vm_compute; reflexivity).
  split; [exact H|].
  exact (proj2 (full_extends_single scenario_env) H).
Defined.

(** ** The key file and the dict of results *)

Lemma string_bytes_app a b :
  string_bytes (a +:+ b) = string_bytes a ++ string_bytes b.
Proof.
  induction a as [|x a IH]; [done|].
  unfold String.app in *; cbn. by rewrite IH.
Qed.

Lemma ends_with_slash_app a c s :
  ends_with_slash (a +:+ String c s) = ends_with_slash (String c s).
Proof.
  unfold ends_with_slash. rewrite string_bytes_app. cbn [string_bytes].
  by rewrite last_app_cons.
Qed.

Lemma app_cons_not_empty a c s : a +:+ String c s <> "".
Proof. destruct a; unfold String.app; cbn; discriminate. Qed.

(** X10. The key file is looked up beside the directory of the script:
    the path is the directory, a slash unless the directory is empty or
    already ends with one, and [../gee_creds.json].  Both scripts use
    this path, and the first call of every run is the construction of
    the credentials for the fixed account with it. *)
Theorem credentials_path env :
  let dir := dirname_file env in
  let sep := if bool_decide (dir = "") || ends_with_slash dir then "" else "/" in
  let path := dir +:+ sep +:+ "../gee_creds.json" in
  let first_call :=
    EvServiceAccountCredentials
      "882446104421-compute@developer.gserviceaccount.com" path
      (observe (ServiceAccountCredentials env
                  "882446104421-compute@developer.gserviceaccount.com" path)) in
  generate_gee_tiles.CREDENTIALS_PATH env = path
  /\ generate_gee_tiles_full.CREDENTIALS_PATH env = path
  /\ head (events (run (generate_gee_tiles.main env)).2) = Some first_call
  /\ head (events (run (generate_gee_tiles_full.main env)).2) = Some first_call.
Proof.
  cbv zeta.
  assert (Hpath : generate_gee_tiles.CREDENTIALS_PATH env
    = dirname_file env
      +:+ (if bool_decide (dirname_file env = "")
              || ends_with_slash (dirname_file env) then "" else "/")
      +:+ "../gee_creds.json").
  { unfold generate_gee_tiles.CREDENTIALS_PATH, os_path_join. cbn [foldl].
    change (starts_with_slash "..") with false.
    change (starts_with_slash "gee_creds.json") with false. cbv iota.
    destruct (bool_decide (dirname_file env = "")
              || ends_with_slash (dirname_file env)).
    - rewrite ends_with_slash_app.
      rewrite (bool_decide_eq_false_2 _ (app_cons_not_empty _ _ _)).
      change (ends_with_slash "..") with false. cbn [orb].
      by rewrite string_app_assoc.
    - change (dirname_file env +:+ "/" +:+ "..")
        with (dirname_file env +:+ "/..").
      rewrite ends_with_slash_app.
      rewrite (bool_decide_eq_false_2 _ (app_cons_not_empty _ _ _)).
      change (ends_with_slash "/..") with false. cbn [orb].
      by rewrite string_app_assoc. }
  split; [exact Hpath|]. split; [exact Hpath|].
  rewrite <- Hpath, main_run, main_full_run.
  change "882446104421-compute@developer.gserviceaccount.com"
    with generate_gee_tiles.SERVICE_ACCOUNT.
  unfold Spec.single_run, Spec.full_run, Spec.authenticate, Spec.auth_trace.
  split; repeat next_call;
    by destruct (Spec.resolve env Spec.tracts),
         (Spec.resolve env Spec.block_groups).
Qed.

(** X11. Storing under a key and reading back, as
    [results['tracts'] = ...] and [result['data']['tracts']] do: after
    [d[k] = v] the key [k] reads [v], every other key reads what it read
    before, and the keys keep their order, a new key going last. *)
Theorem dict_set_then_get d k v k' :
  k' <> k ->
  dict_get (dict_set d k v) k = Some v
  /\ dict_get (dict_set d k v) k' = dict_get d k'
  /\ map fst (dict_set d k v)
     = match dict_get d k with
       | Some _ => map fst d
       | None => map fst d ++ [k]
       end.
Proof.
  intros Hne. induction d as [|[k0 v0] d (IH1 & IH2 & IH3)]; cbn.
  - rewrite String.eqb_refl.
    by rewrite (proj2 (String.eqb_neq k k')).
  - destruct (String.eqb_spec k0 k) as [->|Hk0]; cbn.
    + rewrite String.eqb_refl.
      by rewrite (proj2 (String.eqb_neq k k')).
    + rewrite (proj2 (String.eqb_neq k0 k) Hk0), IH1, IH2, IH3.
      by destruct (dict_get d k).
Qed.

Lemma dict_set_then_get_witness :
  dict_get (dict_set [("tracts", VBool true)] "block_groups" (VBool false))
    "tracts"
  = Some (VBool true).
Proof.
  destruct (dict_set_then_get [("tracts", VBool true)] "block_groups"
              (VBool false) "tracts") as (_ & H & _).
  - discriminate.
  - rewrite H. reflexivity.
Defined.

(** ** The printed JSON is plain ASCII *)

Lemma ascii_text_app a b : ascii_text (a +:+ b) = ascii_text a && ascii_text b.
Proof.
  induction a as [|x a IH]; [done|].
  unfold String.app in *; cbn. rewrite IH. by rewrite andb_assoc.
Qed.

Lemma hex_digit_printable x :
  printable_code (N_of_ascii (hex_digit (N.land x 15))) = true.
Proof.
  change 15%N with (N.ones 4). rewrite N.land_ones.
  assert (x mod 2 ^ 4 < 16)%N as Hlt by (by apply N.mod_upper_bound).
  revert Hlt. generalize (x mod 2 ^ 4)%N. intros y Hlt.
  unfold hex_digit, printable_code.
  destruct (N.ltb_spec y 10);
    rewrite N_ascii_embedding by lia;
    apply andb_true_iff; split; apply N.leb_le; lia.
Qed.

Lemma hex4_ascii n : ascii_text (hex4 n) = true.
Proof. unfold hex4; cbn. by rewrite !hex_digit_printable. Qed.

Lemma escape_char_ascii n : ascii_text (escape_char n) = true.
Proof.
  unfold escape_char.
  repeat (case_match; [reflexivity|]).
  case_match.
  - cbn. match goal with H : _ && _ = true |- _ => rename H into Hrange end.
    apply andb_true_iff in Hrange as [Hlo Hhi].
    apply N.leb_le in Hlo, Hhi.
    rewrite N_ascii_embedding by lia.
    unfold printable_code.
    rewrite (proj2 (N.leb_le _ _) Hlo), (proj2 (N.leb_le _ _) Hhi). done.
  - case_match; rewrite !ascii_text_app, ?hex4_ascii; reflexivity.
Qed.

Lemma encode_basestring_ascii_ascii s :
  ascii_text (encode_basestring_ascii s) = true.
Proof.
  unfold encode_basestring_ascii. rewrite !ascii_text_app.
  change (ascii_text dquote) with true. cbn [andb]. rewrite andb_true_r.
  induction (utf8_decode (string_bytes s)) as [|n l IH]; [done|].
  cbn [foldr]. by rewrite ascii_text_app, escape_char_ascii, IH.
Qed.

(** X12. Whatever characters the tile URLs and the map identifiers
    hold, everything a run prints on standard output is plain ASCII:
    printable characters and newlines, every other character having
    left as a [\uXXXX] escape of [json.dumps]. *)
Theorem stdout_is_plain_ascii env :
  forallb ascii_text (stdout (run (generate_gee_tiles.main env)).2) = true
  /\ forallb ascii_text (stdout (run (generate_gee_tiles_full.main env)).2) = true.
Proof.
  rewrite main_run, main_full_run. unfold Spec.single_run, Spec.full_run.
  destruct (Spec.authenticate env) as [ea|[]]; [done|].
  destruct (Spec.resolve env Spec.tracts) as [e1|t1]; [done|].
  split.
  - cbn [snd stdout forallb]. rewrite andb_true_r.
    unfold json_dumps; cbn [Spec.single_result Spec.tile_dict json_encode].
    rewrite !string_app_assoc, !ascii_text_app, !encode_basestring_ascii_ascii.
    reflexivity.
  - destruct (Spec.resolve env Spec.block_groups) as [e2|t2]; [done|].
    cbn [snd stdout forallb]. rewrite andb_true_r.
    unfold json_dumps; cbn [Spec.full_output json_encode].
    rewrite !string_app_assoc, !ascii_text_app, !encode_basestring_ascii_ascii.
    reflexivity.
Qed.

(** ** Plain strings are printed as they are *)

Lemma utf8_decode_ascii_head b0 r0 :
  (b0 < 128)%N -> utf8_decode (b0 :: r0) = b0 :: utf8_decode r0.
Proof.
  intros Hb.
  assert (H2 : (N.land b0 0xE0 =? 0xC0)%N = false)
    by (apply N.eqb_neq; pose proof (N.land_le_l b0 0xE0); lia).
  assert (H3 : (N.land b0 0xF0 =? 0xE0)%N = false)
    by (apply N.eqb_neq; pose proof (N.land_le_l b0 0xF0); lia).
  assert (H4 : (N.land b0 0xF8 =? 0xF0)%N = false)
    by (apply N.eqb_neq; pose proof (N.land_le_l b0 0xF8); lia).
  destruct r0 as [|b1 [|b2 [|b3 r3]]]; cbn [utf8_decode];
    rewrite ?H2, ?H3, ?H4; reflexivity.
Qed.

Lemma plain_code_escape c :
  plain_code (N_of_ascii c) = true -> escape_char (N_of_ascii c) = String c "".
Proof.
  unfold plain_code, printable_code, escape_char. intros H.
  repeat (apply andb_true_iff in H as [H ?]).
  repeat match goal with
         | H : negb _ = true |- _ => apply negb_true_iff, N.eqb_neq in H
         | H : (_ <=? _)%N = true |- _ => apply N.leb_le in H
         end.
  repeat (case_match;
          [match goal with H : (_ =? _)%N = true |- _ =>
             apply N.eqb_eq in H; lia end|]).
  case_match.
  - by rewrite ascii_N_embedding.
  - match goal with H : _ && _ = false |- _ =>
      apply andb_false_iff in H as [H|H]; apply N.leb_gt in H; lia end.
Qed.

Lemma plain_string_encoded s :
  plain_string s = true -> encode_basestring_ascii s = dquote +:+ s +:+ dquote.
Proof.
  intros Hs. unfold encode_basestring_ascii. do 2 f_equal.
  induction s as [|c s IH]; [done|].
  cbn in Hs. apply andb_true_iff in Hs as [Hc Hs].
  cbn [string_bytes]. rewrite utf8_decode_ascii_head.
  - cbn [foldr]. rewrite plain_code_escape, IH by done. done.
  - unfold plain_code, printable_code in Hc.
    repeat (apply andb_true_iff in Hc as [Hc ?]).
    match goal with H : (_ <=? 126)%N = true |- _ => apply N.leb_le in H; lia end.
Qed.

(** X13. Plain strings go out as they are.  When the session works and
    the tile URL and the map identifier of the tracts hold only
    printable ASCII characters other than the double quote and the
    backslash (a URL template with its [{z}/{x}/{y}] is such a string),
    the single-layer script prints them unchanged between double
    quotes, one field a line, whatever the library does about the block
    groups.  When the block groups resolve to such strings too, the
    dual-layer script prints all four unchanged between double quotes,
    one field a line. *)
Theorem plain_fields_printed_verbatim env t1 :
  Spec.authenticate env = inr tt ->
  Spec.resolve env Spec.tracts = inr t1 ->
  plain_string (Spec.tile_url t1) = true ->
  plain_string (Spec.map_id t1) = true ->
  let field name value last :=
    "  " +:+ dquote +:+ name +:+ dquote +:+ ": "
    +:+ dquote +:+ value +:+ dquote +:+ (if last : bool then "" else ",")
    +:+ newline in
  let head := "{" +:+ newline
              +:+ "  " +:+ dquote +:+ "success" +:+ dquote +:+ ": true,"
              +:+ newline in
  stdout (run (generate_gee_tiles.main env)).2
  = [head
     +:+ field "tile_url" (Spec.tile_url t1) false
     +:+ field "map_id" (Spec.map_id t1) true
     +:+ "}"]
  /\ (forall t2,
        Spec.resolve env Spec.block_groups = inr t2 ->
        plain_string (Spec.tile_url t2) = true ->
        plain_string (Spec.map_id t2) = true ->
        stdout (run (generate_gee_tiles_full.main env)).2
        = [head
           +:+ field "tracts_tile_url" (Spec.tile_url t1) false
           +:+ field "tracts_map_id" (Spec.map_id t1) false
           +:+ field "block_groups_tile_url" (Spec.tile_url t2) false
           +:+ field "block_groups_map_id" (Spec.map_id t2) true
           +:+ "}"]).
Proof.
  intros Hauth Ht Hu1 Hi1. cbv zeta. split.
  - rewrite main_run. unfold Spec.single_run.
    rewrite Hauth, Ht. cbn [snd stdout].
    unfold json_dumps; cbn [Spec.single_result Spec.tile_dict json_encode].
    rewrite !plain_string_encoded by done.
    by rewrite !string_app_assoc.
  - intros t2 Hb Hu2 Hi2.
    rewrite main_full_run. unfold Spec.full_run.
    rewrite Hauth, Ht, Hb. cbn [snd stdout].
    unfold json_dumps; cbn [Spec.full_output json_encode].
    rewrite !plain_string_encoded by done.
    by rewrite !string_app_assoc.
Qed.

Lemma plain_fields_printed_verbatim_witness :
  is_ok (Spec.resolve tracts_only_env Spec.block_groups) = false
  /\ plain_string "https://t.test/{z}/{x}/{y}" = true
  /\ (exists text,
        stdout (run (generate_gee_tiles.main tracts_only_env)).2 = [text])
  /\ (exists text,
        stdout (run (generate_gee_tiles_full.main scenario_env)).2 = [text]).
Proof.
  split; [reflexivity|]. split; [reflexivity|]. split.
  - eexists.
    apply (proj1 (plain_fields_printed_verbatim tracts_only_env
             {| Spec.tile_url := "https://t.test/{z}/{x}/{y}";
                Spec.map_id := "unknown" |}
             eq_refl eq_refl eq_refl eq_refl)).
  - eexists.
    apply (proj2 (plain_fields_printed_verbatim scenario_env
             {| Spec.tile_url := "https://example.com/{z}/{x}/{y}.png";
                Spec.map_id := "abc123" |}
             eq_refl eq_refl eq_refl eq_refl)
             {| Spec.tile_url := "https://example.com/bg/{z}/{x}/{y}.png";
                Spec.map_id := "def456" |}); reflexivity.
Defined.
